(** * pyms.flask.services.metrics

    A shallow embedding of [pyms/flask/services/metrics.py]: the request
    hooks of [FlaskMetricsWrapper], the [/metrics] view registered by
    [Service.serve_metrics], and the logging handler [MetricsLogHandler].

    The module is a thin binding between Flask and a metrics library, so
    every function is embedded as a program over the calls it makes to its
    collaborators ([time.time], [Metric.record], [Metric.add],
    [generate_latest]).  A program is run against an arbitrary environment
    that answers those calls, possibly by raising; the run returns the
    outcome, the final environment and the list of calls that were made. *)

From Stdlib Require Import ZArith Ascii String DecimalString DecimalZ DecimalPos.
From Stdlib Require Import Floats.PrimFloat.
From stdpp Require Import gmap strings list.

Local Open Scope Z_scope.
Local Open Scope string_scope.

(** ** Python values used by the module *)

(** [bytes] objects. *)
Definition bytes := list Byte.byte.

(** A [dict] with [str] keys and [str] values (the label sets). *)
Abbreviation labels := (gmap string string).

(** Exceptions that can cross the functions of the module: the
    [AttributeError] of a missing attribute, and anything a collaborator
    raises. *)
Inductive exn : Type :=
| AttributeError (attr : string)
| LibraryError (msg : string).

(** [str(n)] for an [int]. *)
Definition str_int (n : Z) : string := NilEmpty.string_of_int (Z.to_int n).

(** [int(s)] restricted to the decimal strings [str_int] produces. *)
Definition int_str (s : string) : option Z :=
  Z.of_int <$> NilEmpty.int_of_string s.

(** [c.upper()] and [s.upper()] on ASCII text. *)
Definition upper_ascii (c : ascii) : ascii :=
  let n := nat_of_ascii c in
  if (97 <=? n)%nat && (n <=? 122)%nat then ascii_of_nat (n - 32) else c.

Fixpoint upper (s : string) : string :=
  match s with
  | EmptyString => EmptyString
  | String c s' => String (upper_ascii c) (upper s')
  end.

(** ** Instruments (lines 22-45) *)

Inductive value_type := float_t | int_t.
Inductive metric_type := Counter | ValueRecorder.

Record Metric : Type := create_metric {
  metric_name : string;
  metric_description : string;
  metric_unit : string;
  metric_value_type : value_type;
  metric_kind : metric_type;
  metric_label_keys : list string;
}.

Definition FLASK_REQUEST_LATENCY : Metric :=
  create_metric
    "http_server_requests_seconds"
    "Flask Request Latency"
    "http_server_requests_seconds"
    float_t
    ValueRecorder
    ["service"; "method"; "uri"; "status"].

Definition FLASK_REQUEST_COUNT : Metric :=
  create_metric
    "http_server_requests_count"
    "Flask Request Count"
    "http_server_requests_count"
    int_t
    Counter
    ["service"; "method"; "uri"; "status"].

Definition LOGGER_TOTAL_MESSAGES : Metric :=
  create_metric
    "logger_messages_total"
    "Count of log entries by service and level."
    "logger_messages_total"
    int_t
    Counter
    ["service"; "level"].

(** ** Calls to the collaborators, and programs over them *)

Inductive call : Type :=
| time_time                                            (* time.time() *)
| metric_record (m : Metric) (v : float) (l : labels)  (* m.record(v, l) *)
| metric_add (m : Metric) (v : Z) (l : labels)         (* m.add(v, l) *)
| generate_latest.                                     (* generate_latest() *)

(** What each call returns when it does not raise. *)
Definition answer (c : call) : Type :=
  match c with
  | time_time => float
  | metric_record _ _ _ => unit
  | metric_add _ _ _ => unit
  | generate_latest => bytes
  end.

Inductive prog (A : Type) : Type :=
| Ret (a : A)
| Raise (e : exn)
| Call (c : call) (k : answer c → prog A).
Arguments Ret {A} a.
Arguments Raise {A} e.
Arguments Call {A} c k.

Fixpoint prog_bind {A B} (f : A → prog B) (p : prog A) : prog B :=
  match p with
  | Ret a => f a
  | Raise e => Raise e
  | Call c k => Call c (λ x, prog_bind f (k x))
  end.

#[export] Instance prog_ret : MRet prog := λ A a, Ret a.
#[export] Instance prog_mbind : MBind prog := λ A B f p, prog_bind f p.

(** A call whose answer is the program's result. *)
Definition perform (c : call) : prog (answer c) := Call c Ret.

(** An environment answers every call, or raises, and moves to a new
    state either way. *)
Definition env (W : Type) : Type := ∀ c : call, W → (exn + answer c) * W.

(** The outcome of a run, the final environment, the calls made in order. *)
Definition result (A W : Type) : Type := (exn + A) * W * list call.

Fixpoint run {A W} (h : env W) (p : prog A) (w : W) : result A W :=
  match p with
  | Ret a => (inr a, w, [])
  | Raise e => (inl e, w, [])
  | Call c k =>
      match h c w with
      | (inl e, w') => (inl e, w', [c])
      | (inr x, w') =>
          let '(r, w'', tr) := run h (k x) w' in (r, w'', c :: tr)
      end
  end.

Definition outcome {A W} (r : result A W) : exn + A := r.1.1.
Definition final {A W} (r : result A W) : W := r.1.2.
Definition trace {A W} (r : result A W) : list call := r.2.

(** The calls of a trace that mutate an instrument. *)
Definition is_mutation (c : call) : bool :=
  match c with
  | metric_record _ _ _ | metric_add _ _ _ => true
  | _ => false
  end.

Definition mutations (tr : list call) : list call := List.filter is_mutation tr.

(** ** Flask and Werkzeug objects the module touches *)

(** [werkzeug.routing.Rule]: the attribute read is [rule], the pattern. *)
Record Rule : Type := { rule : string }.

(** [flask.request].  [url_rule] is [None] when no route matched;
    [start_time] is the attribute [before_request] attaches, absent on a
    request the hook never saw. *)
Record Request : Type := {
  url_rule : option Rule;
  path : string;
  method : string;
  start_time : option float;
}.

(** [request.start_time]: an [AttributeError] when the attribute is not
    there. *)
Definition getattr_start_time (request : Request) : prog float :=
  match start_time request with
  | Some t => Ret t
  | None => Raise (AttributeError "start_time")
  end.

Record Response : Type := {
  data : bytes;
  status_code : Z;
  headers : list (string * string);
}.

Module Werkzeug.
(** The part of [werkzeug.wrappers.BaseResponse.__init__] reached by
    [Response(body, mimetype=..., content_type=...)] with a [bytes]
    body, no [status] and no [headers], under [flask.Response]'s class
    attributes. *)
Definition charset : string := "utf-8".
Definition default_status : Z := 200.
Definition default_mimetype : string := "text/html".

Definition _charset_mimetypes : list string :=
  [ "application/ecmascript"; "application/javascript"; "application/sql";
    "application/xml"; "application/xml-dtd";
    "application/xml-external-parsed-entity" ].

Definition endswith (suffix s : string) : bool :=
  String.prefix (String.rev suffix) (String.rev s).

Definition get_content_type (mimetype charset : string) : string :=
  if String.prefix "text/" mimetype
     || bool_decide (mimetype ∈ _charset_mimetypes)
     || endswith "+xml" mimetype
  then mimetype ++ "; charset=" ++ charset
  else mimetype.

Definition Response (response : bytes) (mimetype content_type : option string)
  : Response :=
  let content_type :=
    match content_type with
    | Some ct => ct
    | None =>
        let mimetype := default default_mimetype mimetype in
        get_content_type mimetype charset
    end in
  {| data := response;
     status_code := default_status;
     headers := [ ("Content-Type", content_type);
                  ("Content-Length", str_int (Z.of_nat (length response))) ] |}.

(** [BaseRequest.method], the attribute [flask.request.method]: the
    [REQUEST_METHOD] of the WSGI environ, loaded through [x.upper()]. *)
Definition request_method (REQUEST_METHOD : string) : string :=
  upper REQUEST_METHOD.
End Werkzeug.

(** [response.headers.get(key)]: header names compare without case. *)
Fixpoint headers_get (key : string) (hs : list (string * string)) : option string :=
  match hs with
  | [] => None
  | (k, v) :: hs' => if String.eqb (upper k) (upper key) then Some v else headers_get key hs'
  end.

Definition content_type (r : Response) : option string :=
  headers_get "Content-Type" (headers r).

(** ** class FlaskMetricsWrapper (lines 48-71) *)

Module FlaskMetricsWrapper.
Record t : Type := __init__ { app_name : string }.

(** The hook writes on the request in flight; the request is threaded
    through explicitly. *)
Definition before_request (self : t) (request : Request) : prog Request :=
  now ← perform time_time;
  mret {| url_rule := url_rule request;
          path := path request;
          method := method request;
          start_time := Some now |}.

Definition after_request (self : t) (request : Request) (response : Response)
  : prog Response :=
  let path :=
    match url_rule request with
    | Some r => rule r
    | None => path request
    end in
  now ← perform time_time;
  start ← getattr_start_time request;
  let request_latency := (now - start)%float in
  let labels : labels :=
    <["status" := str_int (status_code response)]>
      (<["uri" := path]>
         (<["method" := method request]>
            (<["service" := app_name self]> ∅))) in
  _ ← perform (metric_record FLASK_REQUEST_LATENCY request_latency labels);
  _ ← perform (metric_add FLASK_REQUEST_COUNT 1 labels);
  mret response.
End FlaskMetricsWrapper.

(** ** class MetricsLogHandler (lines 107-116) *)

(** The attributes of a [logging.LogRecord]. *)
Record LogRecord : Type := {
  name : string;
  levelno : Z;
  levelname : string;
  pathname : string;
  lineno : Z;
  msg : string;
  args : list string;
}.

Module MetricsLogHandler.
Record t : Type := { app_name : string }.

(** [self.app_name = str(app_name)], on a [str]. *)
Definition __init__ (app_name : string) : t := {| app_name := app_name |}.

Definition emit (self : t) (record : LogRecord) : prog unit :=
  let labels : labels :=
    <["level" := levelname record]> (<["service" := app_name self]> ∅) in
  perform (metric_add LOGGER_TOTAL_MESSAGES 1 labels).
End MetricsLogHandler.

(** ** class Service (lines 74-104) *)

Module Flask.
(** A route of a blueprint: rule, methods, view function. *)
Record Route : Type := {
  route_rule : string;
  route_methods : list string;
  view_func : prog Response;
}.

Record Blueprint : Type := {
  blueprint_name : string;
  routes : list Route;
}.

(** [@blueprint.route(rule, methods=...)] appends a route. *)
Definition route (rule : string) (methods : list string) (view : prog Response)
    (bp : Blueprint) : Blueprint :=
  {| blueprint_name := blueprint_name bp;
     routes := routes bp ++
       [ {| route_rule := rule; route_methods := methods; view_func := view |} ] |}.

(** The view a static rule and a method resolve to. *)
Definition match_request (bp : Blueprint) (path method : string) : option (prog Response) :=
  view_func <$>
    List.find (λ r, String.eqb (route_rule r) path
                    && bool_decide (method ∈ route_methods r)) (routes bp).

(** The hooks an application holds. *)
Record App : Type := {
  before_request_funcs : list (Request → prog Request);
  after_request_funcs : list (Request → Response → prog Response);
}.

Definition before_request (f : Request → prog Request) (app : App) : App :=
  {| before_request_funcs := before_request_funcs app ++ [f];
     after_request_funcs := after_request_funcs app |}.

Definition after_request (f : Request → Response → prog Response) (app : App) : App :=
  {| before_request_funcs := before_request_funcs app;
     after_request_funcs := after_request_funcs app ++ [f] |}.

(** One request: the before-request functions in order, the view's
    response, the after-request functions in reverse order. *)
Definition full_dispatch_request (app : App) (request : Request)
    (view : Request → prog Response) : prog Response :=
  request ← foldl (λ acc f, acc ≫= f) (mret request) (before_request_funcs app);
  response ← view request;
  foldl (λ acc f, acc ≫= f request) (mret response)
        (reverse (after_request_funcs app)).
End Flask.

Module Logging.
(** The handlers a [logging.Logger] holds: a handler of this module, or
    any other handler, which makes none of the calls modelled here. *)
Inductive Handler : Type :=
| Metrics (h : MetricsLogHandler.t)
| Foreign (label : string).

Record Logger : Type := {
  logger_name : string;
  handlers : list Handler;
}.

(** [Handler.level]: [NOTSET] for the handler of this module, whose
    [__init__] passes no level on. *)
Definition NOTSET : Z := 0.

(** [Logger.addHandler] for a handler object that is not attached yet, as
    one just constructed is. *)
Definition addHandler (hdlr : Handler) (logger : Logger) : Logger :=
  {| logger_name := logger_name logger;
     handlers := handlers logger ++ [hdlr] |}.

(** [Logger.callHandlers] on a logger without parents: every handler in
    order, each given the records at or above its level. *)
Fixpoint callHandlers (hs : list Handler) (record : LogRecord) : prog unit :=
  match hs with
  | [] => mret tt
  | Metrics h :: hs' =>
      if (NOTSET <=? levelno record)%Z
      then _ ← MetricsLogHandler.emit h record; callHandlers hs' record
      else callHandlers hs' record
  | Foreign _ :: hs' => callHandlers hs' record
  end.

Definition handle (logger : Logger) (record : LogRecord) : prog unit :=
  callHandlers (handlers logger) record.
End Logging.

Module Service.
Record t : Type := {
  config_resource : string;
  metrics_blueprint : Flask.Blueprint;
}.

Definition monitor (app_name : string) (app : Flask.App) : Flask.App :=
  let metric := FlaskMetricsWrapper.__init__ app_name in
  Flask.after_request (FlaskMetricsWrapper.after_request metric)
    (Flask.before_request (FlaskMetricsWrapper.before_request metric) app).

(** The view function [metrics] defined inside [serve_metrics]. *)
Definition metrics : prog Response :=
  latest ← perform generate_latest;
  mret (Werkzeug.Response latest
          (Some "text/print()lain")
          (Some "text/plain; charset=utf-8")).

Definition serve_metrics (self : t) : t :=
  {| config_resource := config_resource self;
     metrics_blueprint :=
       Flask.route "/metrics" ["GET"] metrics (metrics_blueprint self) |}.

Definition __init__ : t :=
  serve_metrics
    {| config_resource := "metrics";
       metrics_blueprint := {| Flask.blueprint_name := "metrics"; Flask.routes := [] |} |}.

Definition add_logger_handler (logger : Logging.Logger) (service_name : string)
  : Logging.Logger :=
  Logging.addHandler (Logging.Metrics (MetricsLogHandler.__init__ service_name)) logger.
End Service.


(** ** The metric registry *)

(** The label set [emit] builds for a service and a level. *)
Definition log_labels (service level : string) : labels :=
  <["level" := level]> (<["service" := service]> ∅).

(** The call [emit] makes for a service and a level (line 116). *)
Definition log_increment (service level : string) : call :=
  metric_add LOGGER_TOTAL_MESSAGES 1 (log_labels service level).

(** An environment that never raises. *)
Definition reliable {W} (h : env W) : Prop :=
  ∀ (c : call) (w : W), ∃ x : answer c, (h c w).1 = inr x.

(** What the module expects of a counter: [add] returns, adds the amount
    to the value kept for the instrument's name and the label set, and
    leaves every other value alone. *)
Record counter_contract {W} (h : env W) (value : W → string → labels → Z) : Prop := {
  add_returns : ∀ m v l w, (h (metric_add m v l) w).1 = inr tt;
  add_value : ∀ m v l w,
    value (h (metric_add m v l) w).2 (metric_name m) l = value w (metric_name m) l + v;
  add_frame : ∀ m v l w n' l',
    (n', l') ≠ (metric_name m, l) →
    value (h (metric_add m v l) w).2 n' l' = value w n' l';
}.

(** What the module expects of rendering: it reads the instrument state
    [state w] and does not change it. *)
Record render_contract {W S} (h : env W) (state : W → S) : Prop := {
  render_keeps : ∀ w, state (h generate_latest w).2 = state w;
  render_reads : ∀ w1 w2,
    state w1 = state w2 → (h generate_latest w1).1 = (h generate_latest w2).1;
}.

Module Registry.
(** Modelled from the spec: the Metric Registry (sections 2, 3 and 6), an
    external collaborator of the module.  It keeps one value per counter
    and label set and the observations of each recorder, and renders them
    as text: per instrument a help line, a type line, and one sample line
    per label set, [name{key="value",...} number]. *)
Record t : Type := {
  clock : float;
  counters : gmap (string * labels) Z;
  recordings : gmap (string * labels) (list float);
}.

Definition empty (now : float) : t :=
  {| clock := now; counters := ∅; recordings := ∅ |}.

Definition value (w : t) (name : string) (l : labels) : Z :=
  default 0 (counters w !! (name, l)).

Definition observations (w : t) (name : string) (l : labels) : list float :=
  default [] (recordings w !! (name, l)).

Definition state (w : t) : gmap (string * labels) Z * gmap (string * labels) (list float) :=
  (counters w, recordings w).

Definition tick (w : t) : t :=
  {| clock := (clock w + 1)%float; counters := counters w; recordings := recordings w |}.

Definition add (m : Metric) (v : Z) (l : labels) (w : t) : t :=
  {| clock := clock w;
     counters := <[(metric_name m, l) := value w (metric_name m) l + v]> (counters w);
     recordings := recordings w |}.

Definition record (m : Metric) (v : float) (l : labels) (w : t) : t :=
  {| clock := clock w;
     counters := counters w;
     recordings :=
       <[(metric_name m, l) := (observations w (metric_name m) l ++ [v])%list]> (recordings w) |}.

Definition instruments : list Metric :=
  [FLASK_REQUEST_LATENCY; FLASK_REQUEST_COUNT; LOGGER_TOTAL_MESSAGES].

Definition dquote : string := String (ascii_of_nat 34) EmptyString.
Definition newline : string := String (ascii_of_nat 10) EmptyString.

Definition render_labels (keys : list string) (l : labels) : string :=
  "{" ++ String.concat ","
           ((λ k, k ++ "=" ++ dquote ++ default "" (l !! k) ++ dquote) <$> keys)
      ++ "}".

Definition render_sample (m : Metric) (suffix : string) (l : labels) (v : Z) : string :=
  metric_name m ++ suffix ++ render_labels (metric_label_keys m) l
    ++ " " ++ str_int v ++ newline.

Definition samples (m : Metric) (w : t) : list string :=
  match metric_kind m with
  | Counter =>
      (λ kv, render_sample m "" kv.1.2 kv.2) <$>
        List.filter (λ kv, String.eqb kv.1.1 (metric_name m)) (map_to_list (counters w))
  | ValueRecorder =>
      (λ kv, render_sample m "_count" kv.1.2 (Z.of_nat (length kv.2))) <$>
        List.filter (λ kv, String.eqb kv.1.1 (metric_name m)) (map_to_list (recordings w))
  end.

Definition render_metric (m : Metric) (w : t) : string :=
  match samples m w with
  | [] => ""
  | lines =>
      "# HELP " ++ metric_name m ++ " " ++ metric_description m ++ newline
      ++ "# TYPE " ++ metric_name m ++ " "
      ++ match metric_kind m with Counter => "counter" | ValueRecorder => "summary" end
      ++ newline ++ String.concat "" lines
  end.

Definition render (w : t) : bytes :=
  list_byte_of_string (String.concat "" ((λ m, render_metric m w) <$> instruments)).

(** The registry answering the module's calls; the clock moves by one
    second per reading. *)
Definition handle : env t :=
  λ c w,
    match c as c' return (exn + answer c') * t with
    | time_time => (inr (clock w), tick w)
    | metric_record m v l => (inr tt, record m v l w)
    | metric_add m v l => (inr tt, add m v l w)
    | generate_latest => (inr (render w), w)
    end.

(** The same collaborators while the registry cannot be reached: every
    call to it raises. *)
Definition unavailable : env t :=
  λ c w,
    match c as c' return (exn + answer c') * t with
    | time_time => (inr (clock w), tick w)
    | _ => (inl (LibraryError "registry unavailable"), w)
    end.
End Registry.

(** ** Values named in the statements *)

(** The value [after_request] binds to [path] (lines 56-59). *)
Definition uri_label (request : Request) : string :=
  match url_rule request with
  | Some r => rule r
  | None => path request
  end.

(** The dict [after_request] binds to [labels] (lines 61-66). *)
Definition request_labels (self : FlaskMetricsWrapper.t) (request : Request)
    (response : Response) : labels :=
  <["status" := str_int (status_code response)]>
    (<["uri" := uri_label request]>
       (<["method" := method request]>
          (<["service" := FlaskMetricsWrapper.app_name self]> ∅))).

(** The keys of the request instruments. *)
Definition request_label_keys : gset string :=
  {["service"; "method"; "uri"; "status"]}.

(** An application with no hook yet. *)
Definition bare_app : Flask.App :=
  {| Flask.before_request_funcs := []; Flask.after_request_funcs := [] |}.

(** One request through the hooks [Service.monitor] registers, around a
    view that answers [response]. *)
Definition monitored_request (app_name : string) (request : Request)
    (response : Response) : prog Response :=
  Flask.full_dispatch_request (Service.monitor app_name bare_app) request
    (λ _, mret response).

Module Sample.
(** [GET /items/42] matched to the route [/items/{id}], before any hook. *)
Definition matched : Request :=
  {| url_rule := Some {| rule := "/items/{id}" |};
     path := "/items/42"; method := "GET"; start_time := None |}.

(** [GET /unknown/path], no route matched, the pre-hook has run. *)
Definition unmatched : Request :=
  {| url_rule := None;
     path := "/unknown/path"; method := "GET"; start_time := Some 100%float |}.

Definition ok : Response :=
  {| data := []; status_code := 200; headers := [("Content-Type", "text/html")] |}.

Definition not_found : Response :=
  {| data := []; status_code := 404; headers := [] |}.

Definition warning (message : string) : LogRecord :=
  {| name := "root"; levelno := 30; levelname := "WARNING";
     pathname := "app.py"; lineno := 3; msg := message; args := [] |}.

(** Another [WARNING] record: other logger, place, message and arguments. *)
Definition other_warning : LogRecord :=
  {| name := "orders.db"; levelno := 30; levelname := "WARNING";
     pathname := "db.py"; lineno := 77; msg := "retry %s"; args := ["3"] |}.

Definition registry : Registry.t := Registry.empty 100%float.
End Sample.

(** ** Further values named in the statements *)

(** The label set a call carries. *)
Definition call_labels (c : call) : option labels :=
  match c with
  | metric_record _ _ l | metric_add _ _ l => Some l
  | _ => None
  end.

(** A call that supplies exactly the label keys its instrument was
    created with. *)
Definition follows_schema (c : call) : Prop :=
  match c with
  | metric_record m _ l | metric_add m _ l =>
      dom l = (list_to_set (metric_label_keys m) : gset string)
  | _ => True
  end.

(** A call that uses its instrument as it was created: an observation on
    a float value recorder, an increment by one on an integer counter. *)
Definition fits_instrument (c : call) : Prop :=
  match c with
  | metric_record m _ _ => metric_kind m = ValueRecorder ∧ metric_value_type m = float_t
  | metric_add m v _ => metric_kind m = Counter ∧ metric_value_type m = int_t ∧ v = 1
  | _ => True
  end.

(** The handler given a series of records, one [emit] after the other. *)
Fixpoint emit_each (self : MetricsLogHandler.t) (records : list LogRecord) : prog unit :=
  match records with
  | [] => mret tt
  | record :: rest => _ ← MetricsLogHandler.emit self record; emit_each self rest
  end.

(** The records of a level. *)
Definition of_level (level : string) (records : list LogRecord) : list LogRecord :=
  List.filter (λ record, String.eqb (levelname record) level) records.

(** The handlers of this module attached for a service. *)
Definition attached_for (service : string) (hs : list Logging.Handler)
  : list Logging.Handler :=
  List.filter
    (λ hdlr, match hdlr with
             | Logging.Metrics m => String.eqb (MetricsLogHandler.app_name m) service
             | Logging.Foreign _ => false
             end) hs.

(** One request through an application monitored twice, first as
    [first], then as [second]. *)
Definition twice_monitored_request (first second : string) (request : Request)
    (response : Response) : prog Response :=
  Flask.full_dispatch_request
    (Service.monitor second (Service.monitor first bare_app)) request
    (λ _, mret response).

(** What the hooks expect of the registry besides the counter contract:
    the clock answers, observations are accepted, and neither touches a
    counter. *)
Record hooks_contract {W} (h : env W) (value : W → string → labels → Z) : Prop := {
  counters_kept : counter_contract h value;
  clock_returns : ∀ w, ∃ now : float, (h time_time w).1 = inr now;
  clock_frame : ∀ w n l, value (h time_time w).2 n l = value w n l;
  record_returns : ∀ m v l w, (h (metric_record m v l) w).1 = inr tt;
  record_frame : ∀ m v l w n l', value (h (metric_record m v l) w).2 n l' = value w n l';
}.

Module Faulty.
(** The registry of [Registry.handle] with its counters out of order:
    observations are accepted, increments raise. *)
Definition counters_down : env Registry.t :=
  λ c w,
    match c as c' return (exn + answer c') * Registry.t with
    | metric_add _ _ _ => (inl (LibraryError "counter unavailable"), w)
    | c' => Registry.handle c' w
    end.
End Faulty.

(** * Properties *)

(** ** Running programs *)

Section Run.
Context {W : Type} (h : env W).

Lemma run_perform (c : call) (w : W) :
  run h (perform c) w = ((h c w).1, (h c w).2, [c]).
Proof.
  unfold perform; simpl.
  destruct (h c w) as [[e|x] w']; reflexivity.
Qed.

Lemma run_bind {A B} (p : prog A) (f : A → prog B) (w : W) :
  run h (p ≫= f) w =
    match run h p w with
    | (inl e, w', tr) => (inl e, w', tr)
    | (inr a, w', tr) =>
        let '(r, w'', tr') := run h (f a) w' in (r, w'', (tr ++ tr')%list)
    end.
Proof.
  revert w; induction p as [a|e|c k IH]; intros w; simpl.
  - destruct (run h (f a) w) as [[r w''] tr']; reflexivity.
  - reflexivity.
  - destruct (h c w) as [[e|x] w']; [reflexivity|].
    change (prog_bind f (k x)) with (k x ≫= f).
    rewrite IH.
    destruct (run h (k x) w') as [[[e|a] w''] tr]; [reflexivity|].
    destruct (run h (f a) w'') as [[r w3] tr']; reflexivity.
Qed.

(** Against an environment that never raises, a program raises only by
    its own [Raise]. *)
Lemma reliable_answer (c : call) (w : W) :
  reliable h → ∃ x, h c w = (inr x, (h c w).2).
Proof.
  intros Hr. destruct (Hr c w) as [x Hx]. exists x.
  destruct (h c w) as [r w']; simpl in *; congruence.
Qed.

End Run.

(** ** The log handler *)

Section LogSink.
Context {W : Type} (h : env W).
Import MetricsLogHandler.

Lemma run_emit (self : t) (record : LogRecord) (w : W) :
  run h (emit self record) w =
    ((h (log_increment (app_name self) (levelname record)) w).1,
     (h (log_increment (app_name self) (levelname record)) w).2,
     [log_increment (app_name self) (levelname record)]).
Proof. exact (run_perform h (log_increment (app_name self) (levelname record)) w). Qed.

End LogSink.

Lemma log_labels_inj (s1 l1 s2 l2 : string) :
  log_labels s1 l1 = log_labels s2 l2 → (s1, l1) = (s2, l2).
Proof.
  unfold log_labels; intros H.
  assert (Hl : Some l1 = Some l2).
  { rewrite <- (lookup_insert_eq (<["service":=s1]> ∅) "level" l1), H.
    apply lookup_insert_eq. }
  assert (Hs : Some s1 = Some s2).
  { assert (Hne : "level" ≠ "service") by discriminate.
    rewrite <- (lookup_insert_eq (∅ : labels) "service" s1).
    rewrite <- (lookup_insert_ne _ "level" "service" l1 Hne), H.
    rewrite lookup_insert_ne by exact Hne. apply lookup_insert_eq. }
  congruence.
Qed.

Lemma registry_counter_contract : counter_contract Registry.handle Registry.value.
Proof.
  split.
  - reflexivity.
  - intros m v l w. unfold Registry.value at 1; simpl.
    by rewrite lookup_insert_eq.
  - intros m v l w n' l' Hne. unfold Registry.value at 1; simpl.
    rewrite lookup_insert_ne by congruence. reflexivity.
Qed.

(** C4 (as amended): [emit] makes exactly one call, the increment of the
    log-message counter with the handler's service and the record's
    level, and the outcome of [emit] is the outcome of that call: it
    returns when the increment returns and raises whatever the increment
    raises.  No failure is swallowed. *)
Theorem emit_outcome_is_increment_outcome
    {W : Type} (h : env W) (self : MetricsLogHandler.t) (record : LogRecord) (w : W) :
  trace (run h (MetricsLogHandler.emit self record) w)
    = [log_increment (MetricsLogHandler.app_name self) (levelname record)]
  ∧ outcome (run h (MetricsLogHandler.emit self record) w)
    = (h (log_increment (MetricsLogHandler.app_name self) (levelname record)) w).1
  ∧ final (run h (MetricsLogHandler.emit self record) w)
    = (h (log_increment (MetricsLogHandler.app_name self) (levelname record)) w).2.
Proof. rewrite run_emit. repeat split. Qed.

(** C4, the claim as stated fails: with the registry out of reach the
    increment raises, and [emit] raises the same exception to the code
    that logged. *)
Lemma emit_raises_when_registry_unavailable :
  outcome (run Registry.unavailable
             (MetricsLogHandler.emit (MetricsLogHandler.__init__ "orders")
                (Sample.warning "disk full"))
             Sample.registry)
  = inl (LibraryError "registry unavailable").
Proof. reflexivity. Qed.

(** C9: against a registry whose counters keep the contract, [emit]
    returns, the log-message counter for (service = the app name, level =
    the record's level name) grows by exactly 1, the counter of every
    other (service, level) pair keeps its value, and so does every other
    counter. *)
Theorem emit_increments_one_counter
    {W : Type} (h : env W) (value : W → string → labels → Z)
    (self : MetricsLogHandler.t) (record : LogRecord) (w : W) :
  counter_contract h value →
  outcome (run h (MetricsLogHandler.emit self record) w) = inr tt
  ∧ value (final (run h (MetricsLogHandler.emit self record) w))
      "logger_messages_total"
      (log_labels (MetricsLogHandler.app_name self) (levelname record))
    = value w "logger_messages_total"
        (log_labels (MetricsLogHandler.app_name self) (levelname record)) + 1
  ∧ (∀ service level : string,
       (service, level) ≠ (MetricsLogHandler.app_name self, levelname record) →
       value (final (run h (MetricsLogHandler.emit self record) w))
         "logger_messages_total" (log_labels service level)
       = value w "logger_messages_total" (log_labels service level))
  ∧ (∀ (n : string) (l : labels),
       n ≠ "logger_messages_total" →
       value (final (run h (MetricsLogHandler.emit self record) w)) n l = value w n l).
Proof.
  intros [Hret Hval Hframe]. rewrite run_emit. unfold outcome, final; simpl.
  split; [apply Hret|]. split; [apply (Hval LOGGER_TOTAL_MESSAGES)|]. split.
  - intros service level Hne. apply Hframe. simpl.
    intros Heq. apply Hne. apply log_labels_inj. congruence.
  - intros n l Hne. apply Hframe. simpl. congruence.
Qed.

(** The scenario of C9: one [WARNING] record for the service ["orders"]
    on a fresh registry leaves the counter at 1. *)
Lemma emit_increments_one_counter_witness :
  Registry.value
    (final (run Registry.handle
              (MetricsLogHandler.emit (MetricsLogHandler.__init__ "orders")
                 (Sample.warning "disk full"))
              Sample.registry))
    "logger_messages_total" (log_labels "orders" "WARNING")
  = 1.
Proof.
  exact (proj1 (proj2
    (emit_increments_one_counter Registry.handle Registry.value
       (MetricsLogHandler.__init__ "orders") (Sample.warning "disk full")
       Sample.registry registry_counter_contract))).
Defined.

(** The text the registry renders after that record. *)
Example warning_exposition :
  string_of_list_byte
    (Registry.render
       (final (run Registry.handle
                 (MetricsLogHandler.emit (MetricsLogHandler.__init__ "orders")
                    (Sample.warning "disk full"))
                 Sample.registry)))
  = "# HELP logger_messages_total Count of log entries by service and level."
    ++ Registry.newline
    ++ "# TYPE logger_messages_total counter" ++ Registry.newline
    ++ "logger_messages_total{service=" ++ Registry.dquote ++ "orders" ++ Registry.dquote
    ++ ",level=" ++ Registry.dquote ++ "WARNING" ++ Registry.dquote ++ "} 1"
    ++ Registry.newline.
Proof. vm_compute. reflexivity. Qed.

(** C10: two records with the same level name, handled by the same
    handler, give the same program, hence under every environment the
    same outcome, the same final state and the same calls with the same
    label sets, whatever their message, arguments, logger name or place. *)
Theorem emit_depends_on_levelname_only
    (self : MetricsLogHandler.t) (r1 r2 : LogRecord) :
  levelname r1 = levelname r2 →
  MetricsLogHandler.emit self r1 = MetricsLogHandler.emit self r2
  ∧ ∀ (W : Type) (h : env W) (w : W),
      run h (MetricsLogHandler.emit self r1) w
      = run h (MetricsLogHandler.emit self r2) w.
Proof.
  intros Hlevel.
  assert (Heq : MetricsLogHandler.emit self r1 = MetricsLogHandler.emit self r2).
  { unfold MetricsLogHandler.emit. by rewrite Hlevel. }
  split; [exact Heq|]. intros W h w. by rewrite Heq.
Qed.

Lemma emit_depends_on_levelname_only_witness :
  msg (Sample.warning "disk full") ≠ msg Sample.other_warning
  ∧ run Registry.handle
      (MetricsLogHandler.emit (MetricsLogHandler.__init__ "orders")
         (Sample.warning "disk full")) Sample.registry
    = run Registry.handle
        (MetricsLogHandler.emit (MetricsLogHandler.__init__ "orders")
           Sample.other_warning) Sample.registry.
Proof.
  split; [discriminate|].
  exact (proj2
    (emit_depends_on_levelname_only (MetricsLogHandler.__init__ "orders")
       (Sample.warning "disk full") Sample.other_warning eq_refl)
    Registry.t Registry.handle Sample.registry).
Defined.

(** ** Upper case *)

Lemma upper_ascii_idempotent (c : ascii) : upper_ascii (upper_ascii c) = upper_ascii c.
Proof. by destruct c as [[] [] [] [] [] [] [] []]. Qed.

Lemma upper_idempotent (s : string) : upper (upper s) = upper s.
Proof.
  induction s as [|c s IH]; simpl; [reflexivity|].
  by rewrite upper_ascii_idempotent, IH.
Qed.

(** ** The request hooks *)

Section Interceptor.
Context {W : Type} (h : env W).
Import FlaskMetricsWrapper.

(** [after_request], call by call. *)
Lemma run_after_request (self : t) (request : Request) (response : Response) (w : W) :
  run h (after_request self request response) w =
    match h time_time w with
    | (inl e, w1) => (inl e, w1, [time_time])
    | (inr now, w1) =>
        match start_time request with
        | None => (inl (AttributeError "start_time"), w1, [time_time])
        | Some start =>
            let c1 := metric_record FLASK_REQUEST_LATENCY (now - start)%float
                        (request_labels self request response) in
            let c2 := metric_add FLASK_REQUEST_COUNT 1
                        (request_labels self request response) in
            match h c1 w1 with
            | (inl e, w2) => (inl e, w2, [time_time; c1])
            | (inr _, w2) =>
                match h c2 w2 with
                | (inl e, w3) => (inl e, w3, [time_time; c1; c2])
                | (inr _, w3) => (inr response, w3, [time_time; c1; c2])
                end
            end
        end
    end.
Proof.
  unfold after_request, getattr_start_time, request_labels, uri_label; simpl.
  destruct (h time_time w) as [[e|now] w1]; [reflexivity|].
  destruct (start_time request) as [start|]; simpl; [|reflexivity].
  destruct (h _ w1) as [[e|[]] w2]; [reflexivity|].
  destruct (h _ w2) as [[e|[]] w3]; reflexivity.
Qed.

(** A run of [after_request] that returns made its three calls, and the
    request carried a start time. *)
Lemma after_request_returns (self : t) (request : Request) (response : Response)
    (w : W) (r : Response) :
  outcome (run h (after_request self request response) w) = inr r →
  r = response
  ∧ ∃ now start : float,
      (h time_time w).1 = inr now
      ∧ start_time request = Some start
      ∧ trace (run h (after_request self request response) w)
        = [ time_time;
            metric_record FLASK_REQUEST_LATENCY (now - start)%float
              (request_labels self request response);
            metric_add FLASK_REQUEST_COUNT 1 (request_labels self request response) ].
Proof.
  rewrite run_after_request. unfold outcome, trace.
  destruct (h time_time w) as [[e|now] w1]; simpl; [discriminate|].
  destruct (start_time request) as [start|]; simpl; [|discriminate].
  destruct (h _ w1) as [[e|[]] w2]; simpl; [discriminate|].
  destruct (h _ w2) as [[e|[]] w3]; simpl; [discriminate|].
  intros [= <-]. split; [reflexivity|]. by exists now, start.
Qed.

(** [before_request] attaches the clock reading and nothing else. *)
Lemma run_before_request (self : t) (request : Request) (w : W) :
  run h (before_request self request) w =
    match h time_time w with
    | (inl e, w0) => (inl e, w0, [time_time])
    | (inr now, w0) =>
        (inr {| url_rule := url_rule request; path := path request;
                method := method request; start_time := Some now |},
         w0, [time_time])
    end.
Proof.
  unfold before_request; simpl.
  destruct (h time_time w) as [[e|now] w0]; reflexivity.
Qed.

End Interceptor.

(** The label set: its keys and its values. *)
Lemma request_labels_dom self request response :
  dom (request_labels self request response) = request_label_keys.
Proof.
  unfold request_labels, request_label_keys.
  rewrite !dom_insert_L, dom_empty_L. set_solver.
Qed.

Lemma request_labels_lookup self request response :
  request_labels self request response !! "service"
    = Some (FlaskMetricsWrapper.app_name self)
  ∧ request_labels self request response !! "method" = Some (method request)
  ∧ request_labels self request response !! "uri" = Some (uri_label request)
  ∧ request_labels self request response !! "status"
    = Some (str_int (status_code response)).
Proof.
  unfold request_labels. split_and!; by simplify_map_eq.
Qed.

(** [str] of an [int] is a non-empty decimal numeral that reads back as
    the number. *)
Lemma int_str_str_int (n : Z) : int_str (str_int n) = Some n.
Proof.
  unfold int_str, str_int. rewrite NilEmpty.isi. simpl.
  f_equal. apply DecimalZ.of_to.
Qed.

Lemma str_int_nonempty (n : Z) : str_int n ≠ "".
Proof.
  unfold str_int. destruct n as [|p|p]; simpl; [discriminate| |discriminate].
  pose proof (Unsigned.to_uint_nonnil p) as Hnil.
  destruct (Pos.to_uint p); simpl; first [congruence | discriminate].
Qed.

Lemma registry_reliable : reliable Registry.handle.
Proof. intros c w. destruct c; eexists; reflexivity. Qed.

(** A request through the registered hooks: the pre-hook's clock reading,
    then [after_request] on the request that carries it. *)
Lemma run_monitored_request {W : Type} (h : env W) (app_name : string)
    (request : Request) (response : Response) (w : W) :
  run h (monitored_request app_name request response) w =
    match h time_time w with
    | (inl e, w0) => (inl e, w0, [time_time])
    | (inr t0, w0) =>
        let '(r, w', tr) :=
          run h (FlaskMetricsWrapper.after_request
                   (FlaskMetricsWrapper.__init__ app_name)
                   {| url_rule := url_rule request; path := path request;
                      method := method request; start_time := Some t0 |}
                   response) w0 in
        (r, w', time_time :: tr)
    end.
Proof.
  unfold monitored_request, Flask.full_dispatch_request, Service.monitor.
  cbn [Flask.before_request Flask.after_request Flask.before_request_funcs
       Flask.after_request_funcs bare_app app reverse rev_append foldl].
  rewrite run_bind.
  change (mret request ≫= _) with
    (FlaskMetricsWrapper.before_request (FlaskMetricsWrapper.__init__ app_name) request).
  rewrite run_before_request.
  destruct (h time_time w) as [[e|t0] w0]; [reflexivity|].
  reflexivity.
Qed.

(** C1 (as amended): on a request the pre-hook never ran for (no start
    time on the request), [after_request] does not complete.  It reads the
    clock and raises, an [AttributeError] for the missing start time once
    the clock has answered; it records neither a latency nor a count and
    returns no response. *)
Theorem after_request_without_start_time_raises
    {W : Type} (h : env W) (self : FlaskMetricsWrapper.t)
    (request : Request) (response : Response) (w : W) :
  start_time request = None →
  (∃ e, outcome (run h (FlaskMetricsWrapper.after_request self request response) w) = inl e)
  ∧ trace (run h (FlaskMetricsWrapper.after_request self request response) w) = [time_time]
  ∧ ∀ now : float,
      (h time_time w).1 = inr now →
      outcome (run h (FlaskMetricsWrapper.after_request self request response) w)
      = inl (AttributeError "start_time").
Proof.
  intros Hnone. rewrite run_after_request, Hnone. unfold outcome, trace.
  destruct (h time_time w) as [[e|now] w1]; simpl.
  - split; [by exists e|]. split; [reflexivity|]. intros ? [=].
  - split; [by eexists|]. split; reflexivity.
Qed.

Lemma after_request_without_start_time_raises_witness :
  outcome (run Registry.handle
             (FlaskMetricsWrapper.after_request (FlaskMetricsWrapper.__init__ "orders")
                {| url_rule := None; path := "/rejected"; method := "POST";
                   start_time := None |}
                Sample.not_found)
             Sample.registry)
  = inl (AttributeError "start_time").
Proof.
  exact (proj2 (proj2
    (after_request_without_start_time_raises Registry.handle
       (FlaskMetricsWrapper.__init__ "orders")
       {| url_rule := None; path := "/rejected"; method := "POST"; start_time := None |}
       Sample.not_found Sample.registry eq_refl)) 100%float eq_refl).
Defined.

(** C1, the claim as stated fails: [GET /items/42] reaching the post-hook
    without a start time makes [after_request] raise; no response comes
    back and no instrument is touched. *)
Lemma after_request_missing_start_time_counterexample :
  outcome (run Registry.handle
             (FlaskMetricsWrapper.after_request (FlaskMetricsWrapper.__init__ "orders")
                Sample.matched Sample.ok)
             Sample.registry)
  = inl (AttributeError "start_time")
  ∧ mutations (trace (run Registry.handle
             (FlaskMetricsWrapper.after_request (FlaskMetricsWrapper.__init__ "orders")
                Sample.matched Sample.ok)
             Sample.registry)) = [].
Proof. split; reflexivity. Qed.

(** C2: whenever [after_request] completes, the latency observation and
    the count increment carry a [uri] label that is the rule of the
    resolved route when there is one, and the request path when there is
    none; in that case the label is the raw path and no other string (so
    neither empty nor a wildcard in place of the path). *)
Theorem after_request_uri_label
    {W : Type} (h : env W) (self : FlaskMetricsWrapper.t)
    (request : Request) (response r : Response) (w : W) :
  outcome (run h (FlaskMetricsWrapper.after_request self request response) w) = inr r →
  ∃ (latency : float) (L : labels),
    mutations (trace (run h (FlaskMetricsWrapper.after_request self request response) w))
    = [ metric_record FLASK_REQUEST_LATENCY latency L;
        metric_add FLASK_REQUEST_COUNT 1 L ]
    ∧ (∀ matched : Rule, url_rule request = Some matched → L !! "uri" = Some (rule matched))
    ∧ (url_rule request = None →
       L !! "uri" = Some (path request)
       ∧ (path request ≠ "" → L !! "uri" ≠ Some "")
       ∧ ∀ s : string, s ≠ path request → L !! "uri" ≠ Some s).
Proof.
  intros Hret. apply after_request_returns in Hret as (_ & now & start & _ & _ & ->).
  exists (now - start)%float, (request_labels self request response).
  destruct (request_labels_lookup self request response) as (_ & _ & Huri & _).
  split; [reflexivity|]. rewrite Huri. unfold uri_label. split.
  - by intros matched ->.
  - intros ->. split; [reflexivity|]. split; congruence.
Qed.

Lemma after_request_uri_label_witness :
  ∃ (latency : float) (L : labels),
    mutations (trace (run Registry.handle
      (FlaskMetricsWrapper.after_request (FlaskMetricsWrapper.__init__ "orders")
         Sample.unmatched Sample.not_found) Sample.registry))
    = [ metric_record FLASK_REQUEST_LATENCY latency L;
        metric_add FLASK_REQUEST_COUNT 1 L ]
    ∧ L !! "uri" = Some "/unknown/path".
Proof.
  destruct (after_request_uri_label Registry.handle
              (FlaskMetricsWrapper.__init__ "orders")
              Sample.unmatched Sample.not_found Sample.not_found Sample.registry eq_refl)
    as (latency & L & Htrace & _ & Hpath).
  exists latency, L. split; [exact Htrace|]. exact (proj1 (Hpath eq_refl)).
Defined.

(** C3 (as amended): a request that goes through the pre-hook and the
    post-hook and completes makes exactly one latency observation and
    exactly one count increment, by 1, with one and the same label set.
    Its keys are [service], [method], [uri] and [status]; its values are
    the configured app name, the request method, the rule or path, and the
    decimal numeral of the status code.  The [status] value is never
    empty; the other three are non-empty when the app name, the method
    and the rule or path are. *)
Theorem monitored_request_records_once
    {W : Type} (h : env W) (app_name : string)
    (request : Request) (response r : Response) (w : W) :
  outcome (run h (monitored_request app_name request response) w) = inr r →
  ∃ (t0 t1 : float) (L : labels),
    trace (run h (monitored_request app_name request response) w)
    = [ time_time; time_time;
        metric_record FLASK_REQUEST_LATENCY (t1 - t0)%float L;
        metric_add FLASK_REQUEST_COUNT 1 L ]
    ∧ dom L = request_label_keys
    ∧ L !! "service" = Some app_name
    ∧ L !! "method" = Some (method request)
    ∧ L !! "uri" = Some (uri_label request)
    ∧ L !! "status" = Some (str_int (status_code response))
    ∧ int_str (str_int (status_code response)) = Some (status_code response)
    ∧ str_int (status_code response) ≠ ""
    ∧ (app_name ≠ "" → method request ≠ "" → uri_label request ≠ "" →
       ∀ k v, L !! k = Some v → v ≠ "").
Proof.
  rewrite run_monitored_request.
  destruct (h time_time w) as [[e|t0] w0]; [discriminate|].
  set (self := FlaskMetricsWrapper.__init__ app_name).
  set (request' := {| url_rule := url_rule request; path := path request;
                      method := method request; start_time := Some t0 |}).
  destruct (run h (FlaskMetricsWrapper.after_request self request' response) w0)
    as [[o w'] tr] eqn:Hrun.
  unfold outcome, trace; simpl. intros ->.
  assert (Hret : outcome (run h (FlaskMetricsWrapper.after_request self request' response) w0)
                 = inr r) by (by rewrite Hrun).
  apply after_request_returns in Hret as (_ & t1 & start & _ & [= <-] & Htrace).
  rewrite Hrun in Htrace; unfold trace in Htrace; simpl in Htrace; subst tr.
  exists t0, t1, (request_labels self request' response).
  destruct (request_labels_lookup self request' response) as (Hs & Hm & Hu & Hst).
  split; [reflexivity|]. split; [apply request_labels_dom|].
  split; [exact Hs|]. split; [exact Hm|]. split; [exact Hu|]. split; [exact Hst|].
  split; [apply int_str_str_int|]. split; [apply str_int_nonempty|].
  intros Ha Hme Hur k v Hkv.
  assert (Hk : k ∈ request_label_keys).
  { rewrite <- (request_labels_dom self request' response).
    apply elem_of_dom. by exists v. }
  unfold request_label_keys in Hk.
  pose proof (str_int_nonempty (status_code response)) as Hne.
  rewrite !elem_of_union, !elem_of_singleton in Hk.
  subst self request'. unfold uri_label in *. simpl in *.
  destruct Hk as [[[-> | ->] | ->] | ->]; congruence.
Qed.

Lemma monitored_request_records_once_witness :
  ∃ (t0 t1 : float) (L : labels),
    trace (run Registry.handle (monitored_request "orders" Sample.matched Sample.ok)
             Sample.registry)
    = [ time_time; time_time;
        metric_record FLASK_REQUEST_LATENCY (t1 - t0)%float L;
        metric_add FLASK_REQUEST_COUNT 1 L ]
    ∧ L !! "uri" = Some "/items/{id}"
    ∧ L !! "status" = Some "200".
Proof.
  destruct (monitored_request_records_once Registry.handle "orders"
              Sample.matched Sample.ok Sample.ok Sample.registry eq_refl)
    as (t0 & t1 & L & Htrace & _ & _ & _ & Huri & Hstatus & _).
  exists t0, t1, L. split; [exact Htrace|]. split; [exact Huri|exact Hstatus].
Defined.

(** C3, the claim as stated fails: with the empty string as app name the
    request completes and both mutations carry the [service] label [""]. *)
Lemma empty_app_name_counterexample :
  outcome (run Registry.handle (monitored_request "" Sample.matched Sample.ok)
             Sample.registry)
  = inr Sample.ok
  ∧ mutations (trace (run Registry.handle (monitored_request "" Sample.matched Sample.ok)
                        Sample.registry))
    = [ metric_record FLASK_REQUEST_LATENCY 1%float
          (request_labels (FlaskMetricsWrapper.__init__ "") Sample.matched Sample.ok);
        metric_add FLASK_REQUEST_COUNT 1
          (request_labels (FlaskMetricsWrapper.__init__ "") Sample.matched Sample.ok) ]
  ∧ request_labels (FlaskMetricsWrapper.__init__ "") Sample.matched Sample.ok !! "service"
    = Some "".
Proof. split_and!; vm_compute; reflexivity. Qed.

(** C5: for a request as Flask hands it to the hook, whose [method]
    attribute Werkzeug loaded from the HTTP method of the request line,
    the [method] label of both mutations of a completed [after_request]
    is the uppercase form of that HTTP method, also when the method was
    sent with lowercase letters; the label is the request's [method]
    attribute as it stands, which is its own uppercase form. *)
Theorem after_request_method_label
    {W : Type} (h : env W) (self : FlaskMetricsWrapper.t)
    (request : Request) (response r : Response) (w : W) (http_method : string) :
  method request = Werkzeug.request_method http_method →
  outcome (run h (FlaskMetricsWrapper.after_request self request response) w) = inr r →
  ∃ (latency : float) (L : labels),
    mutations (trace (run h (FlaskMetricsWrapper.after_request self request response) w))
    = [ metric_record FLASK_REQUEST_LATENCY latency L;
        metric_add FLASK_REQUEST_COUNT 1 L ]
    ∧ L !! "method" = Some (upper http_method)
    ∧ L !! "method" = Some (upper (method request))
    ∧ L !! "method" = Some (method request).
Proof.
  intros Hmethod Hret.
  apply after_request_returns in Hret as (_ & now & start & _ & _ & ->).
  exists (now - start)%float, (request_labels self request response).
  destruct (request_labels_lookup self request response) as (_ & Hm & _ & _).
  split; [reflexivity|]. rewrite Hm, Hmethod. unfold Werkzeug.request_method.
  by rewrite upper_idempotent.
Qed.

(** [get /unknown/path], sent with the method in lower case. *)
Lemma after_request_method_label_witness :
  ∃ (latency : float) (L : labels),
    mutations (trace (run Registry.handle
      (FlaskMetricsWrapper.after_request (FlaskMetricsWrapper.__init__ "orders")
         {| url_rule := None; path := "/unknown/path";
            method := Werkzeug.request_method "get"; start_time := Some 100%float |}
         Sample.not_found) Sample.registry))
    = [ metric_record FLASK_REQUEST_LATENCY latency L;
        metric_add FLASK_REQUEST_COUNT 1 L ]
    ∧ L !! "method" = Some "GET".
Proof.
  destruct (after_request_method_label Registry.handle
              (FlaskMetricsWrapper.__init__ "orders")
              {| url_rule := None; path := "/unknown/path";
                 method := Werkzeug.request_method "get"; start_time := Some 100%float |}
              Sample.not_found Sample.not_found Sample.registry "get" eq_refl eq_refl)
    as (latency & L & Htrace & Hmethod & _).
  exists latency, L. split; [exact Htrace|exact Hmethod].
Defined.

(** C8 (as amended): whenever [after_request] returns, it returns
    exactly the response it was given, with its data, status and headers
    as they were, having made one clock reading and exactly two registry
    mutations, the latency observation and the count increment.  It
    returns for every request that carries a start time when no call
    raises, and on a request without a start time it raises instead of
    returning, with no registry mutation made. *)
Theorem after_request_returns_the_response
    {W : Type} (h : env W) (self : FlaskMetricsWrapper.t)
    (request : Request) (response : Response) (w : W) :
  (∀ r : Response,
     outcome (run h (FlaskMetricsWrapper.after_request self request response) w) = inr r →
     r = response
     ∧ data r = data response
     ∧ status_code r = status_code response
     ∧ headers r = headers response
     ∧ ∃ latency : float,
         trace (run h (FlaskMetricsWrapper.after_request self request response) w)
         = [ time_time;
             metric_record FLASK_REQUEST_LATENCY latency
               (request_labels self request response);
             metric_add FLASK_REQUEST_COUNT 1 (request_labels self request response) ])
  ∧ (reliable h → is_Some (start_time request) →
     outcome (run h (FlaskMetricsWrapper.after_request self request response) w)
     = inr response)
  ∧ (start_time request = None →
     (∃ e : exn,
        outcome (run h (FlaskMetricsWrapper.after_request self request response) w)
        = inl e)
     ∧ mutations
         (trace (run h (FlaskMetricsWrapper.after_request self request response) w))
       = []).
Proof.
  split_and!.
  - intros r Hret. apply after_request_returns in Hret as (-> & now & start & _ & _ & ->).
    split_and!; try reflexivity. by exists (now - start)%float.
  - intros Hrel [start Hstart]. rewrite run_after_request, Hstart.
    destruct (reliable_answer h time_time w Hrel) as [now ->].
    cbv zeta.
    destruct (reliable_answer h
                (metric_record FLASK_REQUEST_LATENCY (now - start)%float
                   (request_labels self request response))
                (h time_time w).2 Hrel) as [[] ->].
    destruct (reliable_answer h
                (metric_add FLASK_REQUEST_COUNT 1 (request_labels self request response))
                (h (metric_record FLASK_REQUEST_LATENCY (now - start)%float
                      (request_labels self request response)) (h time_time w).2).2
                Hrel) as [[] ->].
    reflexivity.
  - intros Hnone. rewrite run_after_request, Hnone. unfold outcome, trace.
    destruct (h time_time w) as [[e|now] w1]; simpl; (split; [by eexists|reflexivity]).
Qed.

Lemma after_request_returns_the_response_witness :
  outcome (run Registry.handle
             (FlaskMetricsWrapper.after_request (FlaskMetricsWrapper.__init__ "orders")
                Sample.unmatched Sample.not_found)
             Sample.registry)
  = inr Sample.not_found.
Proof.
  exact (proj1 (proj2
    (after_request_returns_the_response Registry.handle
       (FlaskMetricsWrapper.__init__ "orders") Sample.unmatched Sample.not_found
       Sample.registry))
    registry_reliable (ex_intro _ 100%float eq_refl)).
Defined.

(** C8, the claim as stated fails: for [GET /items/42] without a start
    time and the 404 response, [after_request] raises and hands no
    response back. *)
Lemma after_request_no_response_counterexample :
  outcome (run Registry.handle
             (FlaskMetricsWrapper.after_request (FlaskMetricsWrapper.__init__ "orders")
                Sample.matched Sample.not_found)
             Sample.registry)
  = inl (AttributeError "start_time")
  ∧ start_time Sample.matched = None.
Proof. split; reflexivity. Qed.

(** ** The metrics endpoint *)

Section Endpoint.
Context {W : Type} (h : env W).

(** The view, call by call: the rendering raises, or its bytes are
    wrapped in a response. *)
Lemma run_metrics (w : W) :
  run h Service.metrics w =
    match h generate_latest w with
    | (inl e, w') => (inl e, w', [generate_latest])
    | (inr latest, w') =>
        (inr (Werkzeug.Response latest (Some "text/print()lain")
                (Some "text/plain; charset=utf-8")),
         w', [generate_latest])
    end.
Proof.
  unfold Service.metrics; simpl.
  destruct (h generate_latest w) as [[e|latest] w']; reflexivity.
Qed.

Lemma metrics_trace (w : W) : trace (run h Service.metrics w) = [generate_latest].
Proof.
  rewrite run_metrics. by destruct (h generate_latest w) as [[e|latest] w'].
Qed.

Lemma metrics_final (w : W) : final (run h Service.metrics w) = (h generate_latest w).2.
Proof.
  rewrite run_metrics. by destruct (h generate_latest w) as [[e|latest] w'].
Qed.

(** When the rendering raises, so does the view; nothing is returned. *)
Lemma metrics_raises (w : W) (e : exn) :
  (h generate_latest w).1 = inl e → outcome (run h Service.metrics w) = inl e.
Proof.
  rewrite run_metrics. destruct (h generate_latest w) as [[e'|latest] w']; simpl.
  - by intros [= ->].
  - discriminate.
Qed.

End Endpoint.

Lemma registry_render_contract : render_contract Registry.handle Registry.state.
Proof.
  split.
  - reflexivity.
  - intros w1 w2 [= Hc Hr]. simpl. unfold Registry.render.
    do 3 f_equal. unfold Registry.instruments; simpl.
    unfold Registry.render_metric, Registry.samples; simpl.
    by rewrite Hc, Hr.
Qed.

(** C6: [GET /metrics] resolves to the view [metrics], which calls the
    rendering once; with the bytes it produces, the view returns a
    response of status 200, content type [text/plain; charset=utf-8], and
    those bytes as body. *)
Theorem metrics_view_response
    {W : Type} (h : env W) (w w' : W) (latest : bytes) :
  h generate_latest w = (inr latest, w') →
  Flask.match_request (Service.metrics_blueprint Service.__init__) "/metrics" "GET"
  = Some Service.metrics
  ∧ ∃ response : Response,
      run h Service.metrics w = (inr response, w', [generate_latest])
      ∧ status_code response = 200
      ∧ content_type response = Some "text/plain; charset=utf-8"
      ∧ data response = latest.
Proof.
  intros Hrender. split; [reflexivity|].
  rewrite run_metrics, Hrender. eexists. split; [reflexivity|].
  split_and!; reflexivity.
Qed.

Lemma metrics_view_response_witness :
  ∃ response : Response,
    run Registry.handle Service.metrics Sample.registry
    = (inr response, Sample.registry, [generate_latest])
    ∧ status_code response = 200
    ∧ content_type response = Some "text/plain; charset=utf-8"
    ∧ data response = Registry.render Sample.registry.
Proof.
  exact (proj2
    (metrics_view_response Registry.handle Sample.registry Sample.registry
       (Registry.render Sample.registry) eq_refl)).
Defined.

(** C7: the view makes no [record] and no [add] call, only the rendering.
    So against a registry whose rendering reads the instrument state
    without changing it, a scrape leaves the instrument state, hence
    every counter and recorder value, as it was; no counter decreases;
    and a second scrape right after the first has the same outcome, the
    same body byte for byte. *)
Theorem metrics_view_reads_only
    {W S : Type} (h : env W) (state : W → S) (w : W) :
  render_contract h state →
  trace (run h Service.metrics w) = [generate_latest]
  ∧ mutations (trace (run h Service.metrics w)) = []
  ∧ state (final (run h Service.metrics w)) = state w
  ∧ (∀ (V : Type) (reading : S → V),
       reading (state (final (run h Service.metrics w))) = reading (state w))
  ∧ (∀ counter : S → Z,
       (counter (state w) ≤ counter (state (final (run h Service.metrics w))))%Z)
  ∧ outcome (run h Service.metrics (final (run h Service.metrics w)))
    = outcome (run h Service.metrics w).
Proof.
  intros [Hkeeps Hreads].
  assert (Hstate : state (final (run h Service.metrics w)) = state w)
    by (rewrite metrics_final; apply Hkeeps).
  split; [apply metrics_trace|]. split; [by rewrite metrics_trace|].
  split; [exact Hstate|]. split; [by intros V reading; rewrite Hstate|].
  split; [by intros counter; rewrite Hstate|].
  rewrite metrics_final, !run_metrics.
  pose proof (Hreads _ _ (Hkeeps w)) as Hsame.
  destruct (h generate_latest (h generate_latest w).2) as [o2 w2].
  destruct (h generate_latest w) as [o1 w1]. simpl in Hsame. subst o2.
  by destruct o1.
Qed.

(** A registry that has counted one [WARNING] record, scraped twice. *)
Lemma metrics_view_reads_only_witness :
  Registry.state
    (final (run Registry.handle Service.metrics
              (Registry.add LOGGER_TOTAL_MESSAGES 1 (log_labels "orders" "WARNING")
                 Sample.registry)))
  = Registry.state
      (Registry.add LOGGER_TOTAL_MESSAGES 1 (log_labels "orders" "WARNING")
         Sample.registry)
  ∧ outcome (run Registry.handle Service.metrics
               (final (run Registry.handle Service.metrics
                         (Registry.add LOGGER_TOTAL_MESSAGES 1
                            (log_labels "orders" "WARNING") Sample.registry))))
    = outcome (run Registry.handle Service.metrics
                 (Registry.add LOGGER_TOTAL_MESSAGES 1 (log_labels "orders" "WARNING")
                    Sample.registry)).
Proof.
  destruct (metrics_view_reads_only Registry.handle Registry.state
              (Registry.add LOGGER_TOTAL_MESSAGES 1 (log_labels "orders" "WARNING")
                 Sample.registry)
              registry_render_contract)
    as (_ & _ & Hstate & _ & _ & Hsame).
  split; [exact Hstate|exact Hsame].
Defined.

(** * Further properties of the module *)

(** ** Sequencing *)

Section Sequencing.
Context {W : Type} (h : env W).

(** A first part that returns hands its result and state to the rest. *)
Lemma run_bind_returns {A B} (p : prog A) (f : A → prog B) (w : W) (a : A) :
  outcome (run h p w) = inr a →
  outcome (run h (p ≫= f) w) = outcome (run h (f a) (final (run h p w)))
  ∧ final (run h (p ≫= f) w) = final (run h (f a) (final (run h p w)))
  ∧ trace (run h (p ≫= f) w)
    = (trace (run h p w) ++ trace (run h (f a) (final (run h p w))))%list.
Proof.
  rewrite run_bind. destruct (run h p w) as [[[e|a'] w'] tr]; unfold outcome, final, trace;
    simpl; [discriminate|]. intros [= ->].
  by destruct (run h (f a) w') as [[o w''] tr'].
Qed.

(** A first part that raises ends the program there. *)
Lemma run_bind_raises {A B} (p : prog A) (f : A → prog B) (w : W) (e : exn) :
  outcome (run h p w) = inl e →
  run h (p ≫= f) w = (inl e, final (run h p w), trace (run h p w)).
Proof.
  rewrite run_bind. destruct (run h p w) as [[[e'|a] w'] tr]; unfold outcome, final, trace;
    simpl; [|discriminate]. by intros [= ->].
Qed.

(** Whatever holds of the clock reading, of every latency observation
    and of the count increment holds of every call [after_request]
    makes. *)
Lemma after_request_calls (P : call → Prop) (self : FlaskMetricsWrapper.t)
    (request : Request) (response : Response) (w : W) :
  P time_time →
  (∀ v, P (metric_record FLASK_REQUEST_LATENCY v (request_labels self request response))) →
  P (metric_add FLASK_REQUEST_COUNT 1 (request_labels self request response)) →
  Forall P (trace (run h (FlaskMetricsWrapper.after_request self request response) w)).
Proof.
  intros Ht Hr Ha. rewrite run_after_request. unfold trace.
  destruct (h time_time w) as [[e|now] w1]; simpl; [by repeat constructor|].
  destruct (start_time request) as [start|]; simpl; [|by repeat constructor].
  destruct (h _ w1) as [[e|[]] w2]; simpl; [by repeat constructor|].
  destruct (h _ w2) as [[e|[]] w3]; simpl; by repeat constructor.
Qed.

Lemma monitored_request_calls (P : call → Prop) (app_name : string)
    (request : Request) (response : Response) (w : W) :
  P time_time →
  (∀ v, P (metric_record FLASK_REQUEST_LATENCY v
             (request_labels (FlaskMetricsWrapper.__init__ app_name) request response))) →
  P (metric_add FLASK_REQUEST_COUNT 1
       (request_labels (FlaskMetricsWrapper.__init__ app_name) request response)) →
  Forall P (trace (run h (monitored_request app_name request response) w)).
Proof.
  intros Ht Hr Ha. rewrite run_monitored_request.
  destruct (h time_time w) as [[e|t0] w0]; [by repeat constructor|].
  pose proof (after_request_calls P (FlaskMetricsWrapper.__init__ app_name)
                {| url_rule := url_rule request; path := path request;
                   method := method request; start_time := Some t0 |}
                response w0 Ht Hr Ha) as Hall.
  destruct (run h _ w0) as [[o w'] tr]. unfold trace in *; simpl in *.
  by constructor.
Qed.

End Sequencing.

Lemma request_labels_schema self request response :
  dom (request_labels self request response)
  = (list_to_set (metric_label_keys FLASK_REQUEST_LATENCY) : gset string)
  ∧ dom (request_labels self request response)
    = (list_to_set (metric_label_keys FLASK_REQUEST_COUNT) : gset string).
Proof.
  rewrite request_labels_dom. unfold request_label_keys. simpl. split; set_solver.
Qed.

Lemma log_labels_schema service level :
  dom (log_labels service level)
  = (list_to_set (metric_label_keys LOGGER_TOTAL_MESSAGES) : gset string).
Proof.
  unfold log_labels. rewrite !dom_insert_L, dom_empty_L. simpl. set_solver.
Qed.

(** ** The label schema of the instruments *)

(** X1: every call the request hooks and the log handler make on an
    instrument, whether the run completes or raises on the way, supplies
    exactly the label keys the instrument was created with (lines 28, 36
    and 44). *)
Theorem calls_follow_the_label_schema
    {W : Type} (h : env W) (w : W) (app_name : string) (request : Request)
    (response : Response) (self : MetricsLogHandler.t) (record : LogRecord) :
  Forall follows_schema (trace (run h (monitored_request app_name request response) w))
  ∧ Forall follows_schema
      (trace (run h (FlaskMetricsWrapper.after_request
                       (FlaskMetricsWrapper.__init__ app_name) request response) w))
  ∧ Forall follows_schema (trace (run h (MetricsLogHandler.emit self record) w)).
Proof.
  split_and!.
  - apply monitored_request_calls; [exact I| |]; intros; apply request_labels_schema.
  - apply after_request_calls; [exact I| |]; intros; apply request_labels_schema.
  - rewrite run_emit. unfold trace; simpl. constructor; [|constructor].
    apply log_labels_schema.
Qed.

(** X2: the module uses every instrument as it was created: the only
    observation is made on the float value recorder, and every increment
    is an increment by exactly one on an integer counter.  No run of a
    hook, of the handler or of the view decreases a counter or observes
    on one, and the view makes no call on an instrument at all. *)
Theorem calls_fit_their_instrument
    {W : Type} (h : env W) (w : W) (app_name : string) (request : Request)
    (response : Response) (self : MetricsLogHandler.t) (record : LogRecord) :
  Forall fits_instrument (trace (run h (monitored_request app_name request response) w))
  ∧ Forall fits_instrument
      (trace (run h (FlaskMetricsWrapper.after_request
                       (FlaskMetricsWrapper.__init__ app_name) request response) w))
  ∧ Forall fits_instrument (trace (run h (MetricsLogHandler.emit self record) w))
  ∧ Forall fits_instrument (trace (run h Service.metrics w))
  ∧ mutations (trace (run h Service.metrics w)) = [].
Proof.
  split_and!.
  - apply monitored_request_calls; [exact I|by intros|by repeat split].
  - apply after_request_calls; [exact I|by intros|by repeat split].
  - rewrite run_emit. unfold trace; simpl. by repeat constructor.
  - rewrite metrics_trace. by repeat constructor.
  - by rewrite metrics_trace.
Qed.

(** ** Failures on the way through [after_request] *)

(** X3: when the latency observation raises, [after_request] raises the
    same exception at once: the count increment is never attempted and no
    response is returned. *)
Theorem after_request_stops_at_a_failed_observation
    {W : Type} (h : env W) (self : FlaskMetricsWrapper.t) (request : Request)
    (response : Response) (w w1 w2 : W) (now start : float) (e : exn) :
  start_time request = Some start →
  h time_time w = (inr now, w1) →
  h (metric_record FLASK_REQUEST_LATENCY (now - start)%float
       (request_labels self request response)) w1 = (inl e, w2) →
  run h (FlaskMetricsWrapper.after_request self request response) w
  = (inl e, w2,
     [ time_time;
       metric_record FLASK_REQUEST_LATENCY (now - start)%float
         (request_labels self request response) ]).
Proof.
  intros Hstart Hclock Hrecord.
  rewrite run_after_request, Hclock, Hstart. cbv zeta. by rewrite Hrecord.
Qed.

Lemma after_request_stops_at_a_failed_observation_witness :
  run Registry.unavailable
    (FlaskMetricsWrapper.after_request (FlaskMetricsWrapper.__init__ "orders")
       Sample.unmatched Sample.not_found) Sample.registry
  = (inl (LibraryError "registry unavailable"), Registry.tick Sample.registry,
     [ time_time;
       metric_record FLASK_REQUEST_LATENCY (100 - 100)%float
         (request_labels (FlaskMetricsWrapper.__init__ "orders")
            Sample.unmatched Sample.not_found) ]).
Proof.
  exact (after_request_stops_at_a_failed_observation Registry.unavailable
           (FlaskMetricsWrapper.__init__ "orders") Sample.unmatched Sample.not_found
           Sample.registry (Registry.tick Sample.registry) (Registry.tick Sample.registry)
           100%float 100%float (LibraryError "registry unavailable")
           eq_refl eq_refl eq_refl).
Defined.

(** X4: when the count increment raises after the latency observation
    went through, [after_request] raises the same exception: the request
    has been observed but not counted, and no response is returned. *)
Theorem after_request_keeps_the_observation_of_an_uncounted_request
    {W : Type} (h : env W) (self : FlaskMetricsWrapper.t) (request : Request)
    (response : Response) (w w1 w2 w3 : W) (now start : float) (e : exn) :
  start_time request = Some start →
  h time_time w = (inr now, w1) →
  h (metric_record FLASK_REQUEST_LATENCY (now - start)%float
       (request_labels self request response)) w1 = (inr tt, w2) →
  h (metric_add FLASK_REQUEST_COUNT 1 (request_labels self request response)) w2
  = (inl e, w3) →
  run h (FlaskMetricsWrapper.after_request self request response) w
  = (inl e, w3,
     [ time_time;
       metric_record FLASK_REQUEST_LATENCY (now - start)%float
         (request_labels self request response);
       metric_add FLASK_REQUEST_COUNT 1 (request_labels self request response) ]).
Proof.
  intros Hstart Hclock Hrecord Hadd.
  rewrite run_after_request, Hclock, Hstart. cbv zeta. by rewrite Hrecord, Hadd.
Qed.

Lemma after_request_keeps_the_observation_of_an_uncounted_request_witness :
  outcome (run Faulty.counters_down
             (FlaskMetricsWrapper.after_request (FlaskMetricsWrapper.__init__ "orders")
                Sample.unmatched Sample.not_found) Sample.registry)
  = inl (LibraryError "counter unavailable")
  ∧ Registry.observations
      (final (run Faulty.counters_down
                (FlaskMetricsWrapper.after_request (FlaskMetricsWrapper.__init__ "orders")
                   Sample.unmatched Sample.not_found) Sample.registry))
      "http_server_requests_seconds"
      (request_labels (FlaskMetricsWrapper.__init__ "orders")
         Sample.unmatched Sample.not_found)
    = [0%float].
Proof.
  rewrite (after_request_keeps_the_observation_of_an_uncounted_request
             Faulty.counters_down
             (FlaskMetricsWrapper.__init__ "orders") Sample.unmatched Sample.not_found
             Sample.registry _ _ _ 100%float 100%float _
             eq_refl eq_refl eq_refl eq_refl).
  split; vm_compute; reflexivity.
Defined.

(** ** What the latency measures *)

(** X5: the latency observed for a request is the clock reading of the
    post-hook minus the clock reading of the pre-hook.  Whatever start
    time the request carried before the pre-hook ran is overwritten and
    plays no part, nor does it show in the label set. *)
Theorem latency_is_measured_between_the_hooks
    {W : Type} (h : env W) (app_name : string) (request : Request)
    (response : Response) (w w0 w1 : W) (t0 t1 : float) :
  h time_time w = (inr t0, w0) →
  h time_time w0 = (inr t1, w1) →
  ∃ rest : list call,
    trace (run h (monitored_request app_name request response) w)
    = time_time :: time_time
      :: metric_record FLASK_REQUEST_LATENCY (t1 - t0)%float
           (request_labels (FlaskMetricsWrapper.__init__ app_name) request response)
      :: rest.
Proof.
  intros Hpre Hpost. rewrite run_monitored_request, Hpre, run_after_request, Hpost.
  cbn [start_time]. cbv zeta.
  change (request_labels (FlaskMetricsWrapper.__init__ app_name)
            {| url_rule := url_rule request; path := path request;
               method := method request; start_time := Some t0 |} response)
    with (request_labels (FlaskMetricsWrapper.__init__ app_name) request response).
  destruct (h _ w1) as [[e|[]] w2]; [by exists []|].
  destruct (h _ w2) as [[e|[]] w3]; by eexists.
Qed.

Lemma latency_is_measured_between_the_hooks_witness :
  ∃ rest : list call,
    trace (run Registry.handle
             (monitored_request "orders"
                {| url_rule := None; path := "/late"; method := "GET";
                   start_time := Some 7%float |}
                Sample.ok)
             Sample.registry)
    = time_time :: time_time
      :: metric_record FLASK_REQUEST_LATENCY (101 - 100)%float
           (request_labels (FlaskMetricsWrapper.__init__ "orders")
              {| url_rule := None; path := "/late"; method := "GET";
                 start_time := Some 7%float |}
              Sample.ok)
      :: rest.
Proof.
  exact (latency_is_measured_between_the_hooks Registry.handle "orders"
           {| url_rule := None; path := "/late"; method := "GET";
              start_time := Some 7%float |}
           Sample.ok Sample.registry (Registry.tick Sample.registry)
           (Registry.tick (Registry.tick Sample.registry)) 100%float 101%float
           eq_refl eq_refl).
Defined.

(** ** Which requests share a series *)

Lemma str_int_inj (n m : Z) : str_int n = str_int m → n = m.
Proof.
  intros H. pose proof (int_str_str_int n) as Hn.
  rewrite H, int_str_str_int in Hn. congruence.
Qed.

Lemma request_labels_eq_iff self1 self2 request1 request2 response1 response2 :
  request_labels self1 request1 response1 = request_labels self2 request2 response2
  ↔ FlaskMetricsWrapper.app_name self1 = FlaskMetricsWrapper.app_name self2
    ∧ method request1 = method request2
    ∧ uri_label request1 = uri_label request2
    ∧ status_code response1 = status_code response2.
Proof.
  split.
  - intros Heq.
    destruct (request_labels_lookup self1 request1 response1) as (Hs1 & Hm1 & Hu1 & Hc1).
    destruct (request_labels_lookup self2 request2 response2) as (Hs2 & Hm2 & Hu2 & Hc2).
    rewrite Heq in Hs1, Hm1, Hu1, Hc1.
    split_and!; [congruence..|]. apply str_int_inj. congruence.
  - intros (Hs & Hm & Hu & Hc). unfold request_labels. by rewrite Hs, Hm, Hu, Hc.
Qed.

(** X6: two completed requests are attributed to the same label set
    exactly when they agree on the app name, the method, the rule or (for
    an unmatched request) the path, and the status code.  So requests
    resolved to one rule share a series whatever their paths, while
    unmatched requests get one series per distinct path, and distinct
    status codes are never merged. *)
Theorem same_series_iff_same_labels
    {W : Type} (h : env W) (self1 self2 : FlaskMetricsWrapper.t)
    (request1 request2 : Request) (response1 response2 r1 r2 : Response) (w1 w2 : W) :
  outcome (run h (FlaskMetricsWrapper.after_request self1 request1 response1) w1) = inr r1 →
  outcome (run h (FlaskMetricsWrapper.after_request self2 request2 response2) w2) = inr r2 →
  call_labels <$>
    mutations (trace (run h (FlaskMetricsWrapper.after_request self1 request1 response1) w1))
  = call_labels <$>
      mutations (trace (run h (FlaskMetricsWrapper.after_request self2 request2 response2) w2))
  ↔ FlaskMetricsWrapper.app_name self1 = FlaskMetricsWrapper.app_name self2
    ∧ method request1 = method request2
    ∧ uri_label request1 = uri_label request2
    ∧ status_code response1 = status_code response2.
Proof.
  intros Hret1 Hret2.
  apply after_request_returns in Hret1 as (_ & now1 & start1 & _ & _ & ->).
  apply after_request_returns in Hret2 as (_ & now2 & start2 & _ & _ & ->).
  rewrite <- request_labels_eq_iff.
  generalize (request_labels self1 request1 response1)
             (request_labels self2 request2 response2).
  intros L1 L2. simpl. split; congruence.
Qed.

(** Two requests resolved to the rule [/items/{id}], for [/items/42] and
    for [/items/7]. *)
Lemma same_series_iff_same_labels_witness :
  call_labels <$>
    mutations (trace (run Registry.handle
      (FlaskMetricsWrapper.after_request (FlaskMetricsWrapper.__init__ "orders")
         {| url_rule := Some {| rule := "/items/{id}" |}; path := "/items/42";
            method := "GET"; start_time := Some 100%float |}
         Sample.ok) Sample.registry))
  = call_labels <$>
      mutations (trace (run Registry.handle
        (FlaskMetricsWrapper.after_request (FlaskMetricsWrapper.__init__ "orders")
           {| url_rule := Some {| rule := "/items/{id}" |}; path := "/items/7";
              method := "GET"; start_time := Some 90%float |}
           Sample.ok) Sample.registry)).
Proof.
  apply (proj2 (same_series_iff_same_labels Registry.handle
                  (FlaskMetricsWrapper.__init__ "orders")
                  (FlaskMetricsWrapper.__init__ "orders")
                  {| url_rule := Some {| rule := "/items/{id}" |}; path := "/items/42";
                     method := "GET"; start_time := Some 100%float |}
                  {| url_rule := Some {| rule := "/items/{id}" |}; path := "/items/7";
                     method := "GET"; start_time := Some 90%float |}
                  Sample.ok Sample.ok Sample.ok Sample.ok
                  Sample.registry Sample.registry eq_refl eq_refl)).
  repeat split.
Defined.

(** ** Counting over many records and requests *)

Lemma registry_hooks_contract : hooks_contract Registry.handle Registry.value.
Proof.
  split.
  - apply registry_counter_contract.
  - intros w. by eexists.
  - reflexivity.
  - reflexivity.
  - reflexivity.
Qed.

(** One [emit] against a registry that keeps the counter contract. *)
Lemma emit_step {W : Type} (h : env W) (value : W → string → labels → Z)
    (self : MetricsLogHandler.t) (record : LogRecord) (w : W) (service level : string) :
  counter_contract h value →
  outcome (run h (MetricsLogHandler.emit self record) w) = inr tt
  ∧ value (final (run h (MetricsLogHandler.emit self record) w))
      "logger_messages_total" (log_labels service level)
    = value w "logger_messages_total" (log_labels service level)
      + (if String.eqb (MetricsLogHandler.app_name self) service
            && String.eqb (levelname record) level then 1 else 0).
Proof.
  intros [Hret Hval Hframe]. rewrite run_emit. unfold outcome, final; simpl.
  split; [apply Hret|].
  destruct (String.eqb_spec (MetricsLogHandler.app_name self) service) as [<-|Hs];
    [destruct (String.eqb_spec (levelname record) level) as [<-|Hl]|]; simpl.
  - apply (Hval LOGGER_TOTAL_MESSAGES).
  - rewrite Z.add_0_r. apply Hframe. simpl.
    intros Heq. pose proof (f_equal snd Heq) as Hsame. cbn [snd] in Hsame.
    apply log_labels_inj in Hsame. congruence.
  - rewrite Z.add_0_r. apply Hframe. simpl.
    intros Heq. pose proof (f_equal snd Heq) as Hsame. cbn [snd] in Hsame.
    apply log_labels_inj in Hsame. congruence.
Qed.

(** X7: a handler given any series of records, against a registry that
    keeps the counter contract, returns from every [emit], and for each
    level the log-message counter of (its service, that level) has grown
    by the number of records of that level in the series. *)
Theorem emit_each_counts_by_level
    {W : Type} (h : env W) (value : W → string → labels → Z)
    (self : MetricsLogHandler.t) (records : list LogRecord) (w : W) :
  counter_contract h value →
  outcome (run h (emit_each self records) w) = inr tt
  ∧ ∀ level : string,
      value (final (run h (emit_each self records) w))
        "logger_messages_total" (log_labels (MetricsLogHandler.app_name self) level)
      = value w "logger_messages_total"
          (log_labels (MetricsLogHandler.app_name self) level)
        + Z.of_nat (length (of_level level records)).
Proof.
  intros Hc. revert w. induction records as [|record rest IH]; intros w.
  - split; [reflexivity|]. intros level. unfold final; simpl. lia.
  - cbn [emit_each].
    destruct (emit_step h value self record w "" "" Hc) as [Hret _].
    destruct (run_bind_returns h (MetricsLogHandler.emit self record)
                (λ _, emit_each self rest) w tt Hret) as (Ho & Hf & _).
    rewrite Ho, Hf.
    destruct (IH (final (run h (MetricsLogHandler.emit self record) w))) as [IHo IHv].
    split; [exact IHo|]. intros level. rewrite IHv.
    destruct (emit_step h value self record w (MetricsLogHandler.app_name self) level Hc)
      as [_ ->].
    rewrite String.eqb_refl. unfold of_level; simpl.
    destruct (String.eqb (levelname record) level); simpl length; lia.
Qed.

Lemma emit_each_counts_by_level_witness :
  Registry.value
    (final (run Registry.handle
              (emit_each (MetricsLogHandler.__init__ "orders")
                 [ Sample.warning "disk full";
                   {| name := "root"; levelno := 40; levelname := "ERROR";
                      pathname := "app.py"; lineno := 9; msg := "boom"; args := [] |};
                   Sample.other_warning ])
              Sample.registry))
    "logger_messages_total" (log_labels "orders" "WARNING")
  = 2.
Proof.
  exact (proj2
    (emit_each_counts_by_level Registry.handle Registry.value
       (MetricsLogHandler.__init__ "orders")
       [ Sample.warning "disk full";
         {| name := "root"; levelno := 40; levelname := "ERROR";
            pathname := "app.py"; lineno := 9; msg := "boom"; args := [] |};
         Sample.other_warning ]
       Sample.registry registry_counter_contract) "WARNING").
Defined.

(** X8: against a registry that keeps the contracts, a request through
    the two hooks completes with the view's response, the request counter
    of its label set has grown by exactly 1, and every other counter,
    the log-message counter included, has kept its value. *)
Theorem monitored_request_counts_once
    {W : Type} (h : env W) (value : W → string → labels → Z)
    (app_name : string) (request : Request) (response : Response) (w : W) :
  hooks_contract h value →
  outcome (run h (monitored_request app_name request response) w) = inr response
  ∧ value (final (run h (monitored_request app_name request response) w))
      "http_server_requests_count"
      (request_labels (FlaskMetricsWrapper.__init__ app_name) request response)
    = value w "http_server_requests_count"
        (request_labels (FlaskMetricsWrapper.__init__ app_name) request response) + 1
  ∧ ∀ (n : string) (l : labels),
      (n, l) ≠ ("http_server_requests_count",
                request_labels (FlaskMetricsWrapper.__init__ app_name) request response) →
      value (final (run h (monitored_request app_name request response) w)) n l
      = value w n l.
Proof.
  intros [[Haret Haval Haframe] Hcret Hcframe Hrret Hrframe].
  rewrite run_monitored_request.
  destruct (Hcret w) as [t0 Ht0]. pose proof (Hcframe w) as Hf0.
  destruct (h time_time w) as [o0 w0]. cbn [fst snd] in Ht0, Hf0. subst o0.
  rewrite run_after_request.
  destruct (Hcret w0) as [t1 Ht1]. pose proof (Hcframe w0) as Hf1.
  destruct (h time_time w0) as [o1 w1]. cbn [fst snd] in Ht1, Hf1. subst o1.
  cbn [start_time]. cbv zeta.
  change (request_labels (FlaskMetricsWrapper.__init__ app_name)
            {| url_rule := url_rule request; path := path request;
               method := method request; start_time := Some t0 |} response)
    with (request_labels (FlaskMetricsWrapper.__init__ app_name) request response).
  generalize (request_labels (FlaskMetricsWrapper.__init__ app_name) request response).
  intros L.
  pose proof (Hrret FLASK_REQUEST_LATENCY (t1 - t0)%float L w1) as Hr.
  pose proof (Hrframe FLASK_REQUEST_LATENCY (t1 - t0)%float L w1) as Hf2.
  destruct (h (metric_record _ _ _) w1) as [o2 w2]. cbn [fst snd] in Hr, Hf2. subst o2.
  pose proof (Haret FLASK_REQUEST_COUNT 1 L w2) as Ha.
  pose proof (Haval FLASK_REQUEST_COUNT 1 L w2) as Hv.
  pose proof (Haframe FLASK_REQUEST_COUNT 1 L w2) as Hf3.
  destruct (h (metric_add _ _ _) w2) as [o3 w3]. cbn [fst snd] in Ha, Hv, Hf3. subst o3.
  unfold outcome, final. cbn [fst snd]. cbn [metric_name FLASK_REQUEST_COUNT] in Hv, Hf3.
  split; [reflexivity|]. split.
  - rewrite Hv, Hf2, Hf1, Hf0. reflexivity.
  - intros n l Hne. rewrite Hf3 by exact Hne. by rewrite Hf2, Hf1, Hf0.
Qed.

Lemma monitored_request_counts_once_witness :
  Registry.value
    (final (run Registry.handle (monitored_request "orders" Sample.matched Sample.ok)
              Sample.registry))
    "http_server_requests_count"
    (request_labels (FlaskMetricsWrapper.__init__ "orders") Sample.matched Sample.ok)
  = 1.
Proof.
  exact (proj1 (proj2
    (monitored_request_counts_once Registry.handle Registry.value "orders"
       Sample.matched Sample.ok Sample.registry registry_hooks_contract))).
Defined.

(** ** Registering more than once *)

(** The twice monitored request, call by call: both pre-hooks read the
    clock and the later one's reading stays on the request; then the
    post-hook registered last runs first. *)
Lemma twice_monitored_request_unfold (first second : string) (request : Request)
    (response : Response) :
  twice_monitored_request first second request response
  = Call time_time (λ _,
      Call time_time (λ t1,
        FlaskMetricsWrapper.after_request (FlaskMetricsWrapper.__init__ second)
          {| url_rule := url_rule request; path := path request;
             method := method request; start_time := Some t1 |} response
        ≫= FlaskMetricsWrapper.after_request (FlaskMetricsWrapper.__init__ first)
             {| url_rule := url_rule request; path := path request;
                method := method request; start_time := Some t1 |})).
Proof. reflexivity. Qed.

(** X9: when [monitor] was applied twice to an application, a request
    whose calls all return is observed and counted twice, once per
    registration, each time under that registration's app name; with one
    and the same name the request counter of the label set grows by 2 per
    request.  The post-hook registered last runs first, and both latencies
    are measured from the clock reading [t1] of the pre-hook that ran
    last: they are [t2 - t1] and [t3 - t1] for the readings [t2] and [t3]
    of the two post-hooks, and the reading [t0] of the first pre-hook
    plays no part. *)
Theorem twice_monitored_request_is_counted_twice
    {W : Type} (h : env W) (first second : string) (request : Request)
    (response : Response) (w w0 w1 w2 w3 w4 w5 w6 w7 : W) (t0 t1 t2 t3 : float) :
  h time_time w = (inr t0, w0) →
  h time_time w0 = (inr t1, w1) →
  h time_time w1 = (inr t2, w2) →
  h (metric_record FLASK_REQUEST_LATENCY (t2 - t1)%float
       (request_labels (FlaskMetricsWrapper.__init__ second) request response)) w2
  = (inr tt, w3) →
  h (metric_add FLASK_REQUEST_COUNT 1
       (request_labels (FlaskMetricsWrapper.__init__ second) request response)) w3
  = (inr tt, w4) →
  h time_time w4 = (inr t3, w5) →
  h (metric_record FLASK_REQUEST_LATENCY (t3 - t1)%float
       (request_labels (FlaskMetricsWrapper.__init__ first) request response)) w5
  = (inr tt, w6) →
  h (metric_add FLASK_REQUEST_COUNT 1
       (request_labels (FlaskMetricsWrapper.__init__ first) request response)) w6
  = (inr tt, w7) →
  run h (twice_monitored_request first second request response) w
  = (inr response, w7,
     [ time_time; time_time; time_time;
       metric_record FLASK_REQUEST_LATENCY (t2 - t1)%float
         (request_labels (FlaskMetricsWrapper.__init__ second) request response);
       metric_add FLASK_REQUEST_COUNT 1
         (request_labels (FlaskMetricsWrapper.__init__ second) request response);
       time_time;
       metric_record FLASK_REQUEST_LATENCY (t3 - t1)%float
         (request_labels (FlaskMetricsWrapper.__init__ first) request response);
       metric_add FLASK_REQUEST_COUNT 1
         (request_labels (FlaskMetricsWrapper.__init__ first) request response) ]).
Proof.
  intros Hpre1 Hpre2 Hpost2 Hrecord2 Hadd2 Hpost1 Hrecord1 Hadd1.
  rewrite twice_monitored_request_unfold. cbn [run]. rewrite Hpre1, Hpre2.
  rewrite run_bind, run_after_request, Hpost2. cbn [start_time]. cbv zeta.
  change (request_labels (FlaskMetricsWrapper.__init__ second)
            {| url_rule := url_rule request; path := path request;
               method := method request; start_time := Some t1 |} response)
    with (request_labels (FlaskMetricsWrapper.__init__ second) request response).
  rewrite Hrecord2, Hadd2.
  rewrite run_after_request, Hpost1. cbn [start_time]. cbv zeta.
  change (request_labels (FlaskMetricsWrapper.__init__ first)
            {| url_rule := url_rule request; path := path request;
               method := method request; start_time := Some t1 |} response)
    with (request_labels (FlaskMetricsWrapper.__init__ first) request response).
  by rewrite Hrecord1, Hadd1.
Qed.

(** [GET /items/42] through an application monitored twice as ["orders"],
    the clock at 100 and moving by one second per reading: the pre-hooks
    read 100 and 101, the post-hooks 102 and 103. *)
Lemma twice_monitored_request_is_counted_twice_witness :
  trace (run Registry.handle
           (twice_monitored_request "orders" "orders" Sample.matched Sample.ok)
           Sample.registry)
  = [ time_time; time_time; time_time;
      metric_record FLASK_REQUEST_LATENCY (102 - 101)%float
        (request_labels (FlaskMetricsWrapper.__init__ "orders") Sample.matched Sample.ok);
      metric_add FLASK_REQUEST_COUNT 1
        (request_labels (FlaskMetricsWrapper.__init__ "orders") Sample.matched Sample.ok);
      time_time;
      metric_record FLASK_REQUEST_LATENCY (103 - 101)%float
        (request_labels (FlaskMetricsWrapper.__init__ "orders") Sample.matched Sample.ok);
      metric_add FLASK_REQUEST_COUNT 1
        (request_labels (FlaskMetricsWrapper.__init__ "orders") Sample.matched Sample.ok) ]
  ∧ Registry.value
      (final (run Registry.handle
                (twice_monitored_request "orders" "orders" Sample.matched Sample.ok)
                Sample.registry))
      "http_server_requests_count"
      (request_labels (FlaskMetricsWrapper.__init__ "orders") Sample.matched Sample.ok)
    = 2.
Proof.
  rewrite (twice_monitored_request_is_counted_twice Registry.handle "orders" "orders"
             Sample.matched Sample.ok Sample.registry _ _ _ _ _ _ _ _
             100%float 101%float 102%float 103%float
             eq_refl eq_refl eq_refl eq_refl eq_refl eq_refl eq_refl eq_refl).
  split; vm_compute; reflexivity.
Defined.

(** What a logger's handlers add to the counter of a service and the
    record's level: one per handler of this module attached for the
    service. *)
Lemma callHandlers_counts {W : Type} (h : env W) (value : W → string → labels → Z)
    (hs : list Logging.Handler) (record : LogRecord) (service : string) (w : W) :
  counter_contract h value →
  (Logging.NOTSET ≤ levelno record)%Z →
  outcome (run h (Logging.callHandlers hs record) w) = inr tt
  ∧ value (final (run h (Logging.callHandlers hs record) w))
      "logger_messages_total" (log_labels service (levelname record))
    = value w "logger_messages_total" (log_labels service (levelname record))
      + Z.of_nat (length (attached_for service hs)).
Proof.
  intros Hc Hlevel. revert w. induction hs as [|[m|label] hs IH]; intros w.
  - split; [reflexivity|]. unfold final; simpl. lia.
  - cbn [Logging.callHandlers].
    destruct (Z.leb_spec Logging.NOTSET (levelno record)) as [_|Hlt]; [|lia].
    destruct (emit_step h value m record w service (levelname record) Hc) as [Hret Hval].
    destruct (run_bind_returns h (MetricsLogHandler.emit m record)
                (λ _, Logging.callHandlers hs record) w tt Hret) as (Ho & Hf & _).
    rewrite Ho, Hf.
    destruct (IH (final (run h (MetricsLogHandler.emit m record) w))) as [IHo IHv].
    split; [exact IHo|]. rewrite IHv, Hval, String.eqb_refl, andb_true_r.
    unfold attached_for; simpl.
    destruct (String.eqb (MetricsLogHandler.app_name m) service); simpl length; lia.
  - cbn [Logging.callHandlers]. destruct (IH w) as [IHo IHv].
    split; [exact IHo|]. rewrite IHv. reflexivity.
Qed.

Lemma attached_for_add_logger_handler (logger : Logging.Logger) (service : string) :
  length (attached_for service (Logging.handlers (Service.add_logger_handler logger service)))
  = S (length (attached_for service (Logging.handlers logger))).
Proof.
  unfold Service.add_logger_handler, Logging.addHandler, attached_for; simpl.
  rewrite List.filter_app, length_app; simpl.
  rewrite String.eqb_refl; simpl. lia.
Qed.

(** X10: [add_logger_handler] keeps the handlers the logger had, in
    order, and appends one.  Against a registry that keeps the counter
    contract, a record handled by the logger is then counted once more
    than before for the service and the record's level; applied twice for
    one service, every record is counted twice more. *)
Theorem add_logger_handler_counts_once_more
    {W : Type} (h : env W) (value : W → string → labels → Z)
    (logger : Logging.Logger) (service : string) (record : LogRecord) (w : W) :
  counter_contract h value →
  (Logging.NOTSET ≤ levelno record)%Z →
  (∃ added, Logging.handlers (Service.add_logger_handler logger service)
            = (Logging.handlers logger ++ [added])%list)
  ∧ outcome (run h (Logging.handle (Service.add_logger_handler logger service) record) w)
    = inr tt
  ∧ value (final (run h (Logging.handle (Service.add_logger_handler logger service)
                           record) w))
      "logger_messages_total" (log_labels service (levelname record))
    = value (final (run h (Logging.handle logger record) w))
        "logger_messages_total" (log_labels service (levelname record)) + 1
  ∧ value (final (run h (Logging.handle
                           (Service.add_logger_handler
                              (Service.add_logger_handler logger service) service)
                           record) w))
      "logger_messages_total" (log_labels service (levelname record))
    = value (final (run h (Logging.handle logger record) w))
        "logger_messages_total" (log_labels service (levelname record)) + 2.
Proof.
  intros Hc Hlevel. unfold Logging.handle.
  split; [by eexists|].
  split; [apply (callHandlers_counts h value _ record service w Hc Hlevel)|].
  rewrite !(proj2 (callHandlers_counts h value _ record service w Hc Hlevel)).
  rewrite !attached_for_add_logger_handler. split; lia.
Qed.

Lemma add_logger_handler_counts_once_more_witness :
  Registry.value
    (final (run Registry.handle
              (Logging.handle
                 (Service.add_logger_handler
                    (Service.add_logger_handler
                       {| Logging.logger_name := "root";
                          Logging.handlers := [Logging.Foreign "console"] |}
                       "orders")
                    "orders")
                 (Sample.warning "disk full"))
              Sample.registry))
    "logger_messages_total" (log_labels "orders" "WARNING")
  = 2.
Proof.
  pose proof (add_logger_handler_counts_once_more Registry.handle Registry.value
                {| Logging.logger_name := "root";
                   Logging.handlers := [Logging.Foreign "console"] |}
                "orders" (Sample.warning "disk full") Sample.registry
                registry_counter_contract) as Hadd.
  destruct Hadd as (_ & _ & _ & Htwice); [vm_compute; discriminate|].
  exact Htwice.
Defined.

(** ** A failing scrape *)

(** X11: the view has no handler of its own around the rendering: when
    [generate_latest] raises, the view raises the same exception after
    that single call and builds no response. *)
Theorem metrics_view_propagates_a_rendering_failure
    {W : Type} (h : env W) (w w' : W) (e : exn) :
  h generate_latest w = (inl e, w') →
  run h Service.metrics w = (inl e, w', [generate_latest]).
Proof. intros Hrender. by rewrite run_metrics, Hrender. Qed.

Lemma metrics_view_propagates_a_rendering_failure_witness :
  run Registry.unavailable Service.metrics Sample.registry
  = (inl (LibraryError "registry unavailable"), Sample.registry, [generate_latest]).
Proof.
  exact (metrics_view_propagates_a_rendering_failure Registry.unavailable
           Sample.registry Sample.registry (LibraryError "registry unavailable") eq_refl).
Defined.
